(** * Feature glue of the speaker-recognition package

    A shallow embedding of [src/feature/__init__.py]: the import-time choice
    of the MFCC implementation, the closure factory [get_extractor] and the
    feature mixer [mix_feature], together with the fragments of Python and
    of numpy that these twenty lines rely on (exceptions, [len], indexing,
    argument binding at a call, [print] to a stream, [np.concatenate]). *)

From Stdlib Require Import PrimFloat ZArith DecimalString Lia.
From stdpp Require Import base list strings gmap.

Open Scope string_scope.
Open Scope list_scope.
Open Scope nat_scope.

Set Warnings "-register-all".

(** ** Python exceptions *)

Module Py.

(** The exception classes that occur in this module's behaviour.  The last
    three derive from [BaseException] only, so [except Exception] lets them
    through. *)
Inductive exn_class :=
| ImportError | TypeError | IndexError | ValueError | AxisError | RuntimeError
| KeyboardInterrupt | SystemExit | GeneratorExit.

(** An exception object: its class and [str(e)]. *)
Record exn := Exn { exn_cls : exn_class; exn_text : string }.

(** [isinstance(e, Exception)]. *)
Definition is_Exception (e : exn) : bool :=
  match exn_cls e with
  | KeyboardInterrupt | SystemExit | GeneratorExit => false
  | _ => true
  end.

(** Outcome of evaluating a Python expression or statement. *)
Inductive result (A : Type) :=
| Return (a : A)
| Raise (e : exn).
Arguments Return {A} a.
Arguments Raise {A} e.

End Py.
Export Py.

(** ** numpy arrays *)

Module Np.

(** An [ndarray] of doubles: its shape and its buffer in row-major order. *)
Record ndarray := { shape : list nat; data : list float }.

(** Number of entries described by a shape. *)
Definition size_of (sh : list nat) : nat := foldr Nat.mul 1 sh.

(** The buffer holds exactly the entries the shape announces; every array
    numpy hands out satisfies this. *)
Definition wf_ndarray (a : ndarray) : Prop := length (data a) = size_of (shape a).

Definition ndim (a : ndarray) : nat := length (shape a).

(** [a[i]]: the [i]-th slice along the first axis. *)
Definition slice0 (a : ndarray) (i : nat) : ndarray :=
  let sh := tail (shape a) in
  {| shape := sh; data := take (size_of sh) (drop (i * size_of sh) (data a)) |}.

(** [a[i, j]] of a two-dimensional array; [None] where numpy raises
    [IndexError]. *)
Definition item2 (a : ndarray) (i j : nat) : option float :=
  match shape a with
  | [r; c] => if bool_decide (i < r ∧ j < c) then data a !! (i * c + j) else None
  | _ => None
  end.

(** Copy loop of a concatenation: for each of the [outer] leading index
    combinations, one chunk of every input in turn.  A buffer is paired
    with its chunk size. *)
Fixpoint gather (outer : nat) (bufs : list (nat * list float)) : list float :=
  match outer with
  | 0 => []
  | S n =>
      mjoin ((λ kb : nat * list float, take kb.1 kb.2) <$> bufs)
        ++ gather n ((λ kb : nat * list float, (kb.1, drop kb.1 kb.2)) <$> bufs)
  end.

Definition err_zero_dim : exn :=
  Exn ValueError "zero-dimensional arrays cannot be concatenated".
Definition err_axis : exn :=
  Exn AxisError "axis is out of bounds for array of this dimension".
Definition err_ndim : exn :=
  Exn ValueError "all the input arrays must have same number of dimensions".
Definition err_shape : exn :=
  Exn ValueError
    "all the input array dimensions except for the concatenation axis must match exactly".
Definition err_no_arrays : exn :=
  Exn ValueError "need at least one array to concatenate".

(** The check numpy performs on each further input against the first. *)
Definition check_against (axis : nat) (a b : ndarray) : option exn :=
  if bool_decide (ndim b = ndim a) then
    if bool_decide (<[axis := 0]> (shape b) = <[axis := 0]> (shape a)) then None
    else Some err_shape
  else Some err_ndim.

Fixpoint first_error (axis : nat) (a : ndarray) (rest : list ndarray) : option exn :=
  match rest with
  | [] => None
  | b :: rest' =>
      match check_against axis a b with
      | Some e => Some e
      | None => first_error axis a rest'
      end
  end.

(** [np.concatenate(arrs, axis=axis)]. *)
Definition concatenate (arrs : list ndarray) (axis : nat) : exn + ndarray :=
  match arrs with
  | [] => inl err_no_arrays
  | a :: rest =>
      if bool_decide (ndim a = 0) then inl err_zero_dim
      else if bool_decide (ndim a ≤ axis) then inl err_axis
      else
        match first_error axis a rest with
        | Some e => inl e
        | None =>
            inr {| shape :=
                     <[axis := sum_list ((λ b, default 0 (shape b !! axis)) <$> arrs)]> (shape a);
                   data :=
                     gather (size_of (take axis (shape a)))
                       ((λ b, (size_of (drop axis (shape b)), data b)) <$> arrs) |}
        end
  end.

End Np.
Export Np.

(** ** Python values and the built-ins the module calls *)

Module Builtins.

Inductive pyval :=
| VNone
| VInt (z : Z)
| VFloat (x : float)
| VStr (s : string)
| VTuple (l : list pyval)
| VList (l : list pyval)
| VArray (a : ndarray).

Definition err_no_len (ty : string) : exn :=
  Exn TypeError ("object of type '" +:+ ty +:+ "' has no len()").
Definition err_unsized : exn := Exn TypeError "len() of unsized object".
Definition err_not_subscriptable (ty : string) : exn :=
  Exn TypeError ("'" +:+ ty +:+ "' object is not subscriptable").
Definition err_index (ty : string) : exn :=
  Exn IndexError (ty +:+ " index out of range").
Definition err_not_iterable : exn :=
  Exn TypeError "argument after * must be an iterable".

(** [len(v)]. *)
Definition py_len (v : pyval) : exn + nat :=
  match v with
  | VNone => inl (err_no_len "NoneType")
  | VInt _ => inl (err_no_len "int")
  | VFloat _ => inl (err_no_len "float")
  | VStr s => inr (String.length s)
  | VTuple l => inr (length l)
  | VList l => inr (length l)
  | VArray a =>
      match shape a with
      | [] => inl err_unsized
      | n :: _ => inr n
      end
  end.

(** [v[i]] for a non-negative literal index. *)
Definition py_getitem (v : pyval) (i : nat) : exn + pyval :=
  match v with
  | VNone => inl (err_not_subscriptable "NoneType")
  | VInt _ => inl (err_not_subscriptable "int")
  | VFloat _ => inl (err_not_subscriptable "float")
  | VStr s =>
      match String.get i s with
      | Some c => inr (VStr (String c ""))
      | None => inl (err_index "string")
      end
  | VTuple l =>
      match l !! i with
      | Some x => inr x
      | None => inl (err_index "tuple")
      end
  | VList l =>
      match l !! i with
      | Some x => inr x
      | None => inl (err_index "list")
      end
  | VArray a =>
      match shape a with
      | [] => inl (err_index "array")
      | n :: _ => if bool_decide (i < n) then inr (VArray (slice0 a i)) else inl (err_index "array")
      end
  end.

(** The positional arguments produced by [*v] at a call. *)
Definition py_unpack (v : pyval) : exn + list pyval :=
  match v with
  | VTuple l => inr l
  | VList l => inr l
  | VStr s => inr ((λ c, VStr (String c "")) <$> String.list_ascii_of_string s)
  | VArray a =>
      match shape a with
      | [] => inl err_not_iterable
      | n :: _ => inr ((λ i, VArray (slice0 a i)) <$> seq 0 n)
      end
  | _ => inl err_not_iterable
  end.

(** [str(n)] of a non-negative integer. *)
Definition str_int (n : nat) : string := NilZero.string_of_uint (Nat.to_uint n).

(** What [print(a1, ..., an)] writes, without the final newline. *)
Fixpoint print_line (args : list string) : string :=
  match args with
  | [] => ""
  | [a] => a
  | a :: rest => a +:+ " " +:+ print_line rest
  end.

End Builtins.
Export Builtins.

(** ** The world the module runs in *)

(** The sibling modules and the library named by the import statements. *)
Inductive module_name := mod_BOB | mod_MFCC | mod_LPC | mod_numpy.

(** [sys.stdout] and [sys.stderr]. *)
Inductive stream := Stdout | Stderr.

Section World.

(** Whatever state the collaborators (the interpreter's import system, the
    extractor modules, a wrapped extraction function) keep for themselves. *)
Variable E : Type.

(** The two streams hold what this module has printed, oldest first, one
    entry per call of [print] without its final newline (what a
    collaborator prints on its own account is not recorded);
    [w_calls] logs every invocation of an extractor's [extract], oldest
    first. *)
Record world := World {
  w_ext : E;
  w_stdout : list string;
  w_stderr : list string;
  w_calls : list (module_name * pyval)
}.

(** Statements and expressions: state passing with exceptions. *)
Definition M (A : Type) : Type := world → result A * world.

Definition ret {A} (a : A) : M A := λ w, (Return a, w).

Definition raise {A} (e : exn) : M A := λ w, (Raise e, w).

Definition bind {A B} (c : M A) (k : A → M B) : M B :=
  λ w, match c w with
       | (Return a, w') => k a w'
       | (Raise e, w') => (Raise e, w')
       end.

(** A built-in that either raises or answers, without touching the world. *)
Definition lift {A} (r : exn + A) : M A :=
  match r with
  | inl e => raise e
  | inr a => ret a
  end.

(** A call into a collaborator: it sees and changes its own state only. *)
Definition external {A} (f : E → result A * E) : M A :=
  λ w, let '(r, x) := f (w_ext w) in
       (r, {| w_ext := x; w_stdout := w_stdout w;
              w_stderr := w_stderr w; w_calls := w_calls w |}).

(** [print] of [args] to [file]. *)
Definition print_ (file : stream) (args : list string) : M unit :=
  λ w, (Return tt,
        match file with
        | Stdout => {| w_ext := w_ext w; w_stdout := w_stdout w ++ [print_line args];
                       w_stderr := w_stderr w; w_calls := w_calls w |}
        | Stderr => {| w_ext := w_ext w; w_stdout := w_stdout w;
                       w_stderr := w_stderr w ++ [print_line args]; w_calls := w_calls w |}
        end).

(** [try: body / except Exception as e: handler]. *)
Definition try_except_Exception {A} (body : M A) (handler : exn → M A) : M A :=
  λ w, match body w with
       | (Return a, w') => (Return a, w')
       | (Raise e, w') => if is_Exception e then handler e w' else (Raise e, w')
       end.

(** *** Function objects and calls *)

(** A function [def f(p1, ..., pn, k1=d1, ..., km=dm)]: its parameters
    without and with default values, and its body as a function of the
    values of all [n + m] parameters in declaration order. *)
Record pyfunc := {
  fn_params : list string;
  fn_options : list (string * pyval);
  fn_body : list pyval → E → result pyval * E
}.

Definition fn_names (fn : pyfunc) : list string :=
  fn_params fn ++ (fst <$> fn_options fn).

Definition err_too_many : exn := Exn TypeError "too many positional arguments".
Definition err_unexpected_keyword : exn := Exn TypeError "got an unexpected keyword argument".
Definition err_multiple_values : exn := Exn TypeError "got multiple values for keyword argument".
Definition err_too_few : exn := Exn TypeError "too few arguments".

(** Argument binding of a call of [fn] with positional [args] and keywords
    [kwargs]: surplus positional arguments are refused first, then keywords
    (one that names no parameter, one that names a parameter already filled
    by position), then parameters left without a value.  Every refusal is a
    [TypeError]; the texts abbreviate the interpreter's. *)
Definition bind_args (fn : pyfunc) (args : list pyval) (kwargs : gmap string pyval)
  : exn + list pyval :=
  let n := length args in
  if bool_decide (length (fn_names fn) < n) then inl err_too_many
  else if negb (bool_decide (Forall (λ k, k ∈ fn_names fn) (elements (dom kwargs))))
  then inl err_unexpected_keyword
  else if negb (bool_decide (Forall (λ p, kwargs !! p = None) (take n (fn_names fn))))
  then inl err_multiple_values
  else if negb (bool_decide (Forall (λ p, is_Some (kwargs !! p)) (drop n (fn_params fn))))
  then inl err_too_few
  else inr (args
            ++ ((λ p, default VNone (kwargs !! p)) <$> drop n (fn_params fn))
            ++ ((λ kd : string * pyval, default kd.2 (kwargs !! kd.1))
                  <$> drop (n - length (fn_params fn)) (fn_options fn))).

(** The call of [fn] with positional [args] and keywords [kwargs]. *)
Definition py_call (fn : pyfunc) (args : list pyval) (kwargs : gmap string pyval) : M pyval :=
  bind (lift (bind_args fn args kwargs)) (λ vals, external (fn_body fn vals)).

End World.

Arguments World {E}.
Arguments w_ext {E}.
Arguments w_stdout {E}.
Arguments w_stderr {E}.
Arguments w_calls {E}.
Arguments ret {E A}.
Arguments raise {E A}.
Arguments bind {E A B}.
Arguments lift {E A}.
Arguments external {E A}.
Arguments print_ {E}.
Arguments try_except_Exception {E A}.
Arguments fn_params {E}.
Arguments fn_options {E}.
Arguments fn_body {E}.
Arguments fn_names {E}.
Arguments bind_args {E}.
Arguments py_call {E}.

Notation "'let!' x ':=' c 'in' k" := (bind c (λ x, k))
  (at level 10, x name, c at level 100, k at level 200).
Notation "c ';;' k" := (bind c (λ _, k))
  (at level 100, k at level 200, right associativity).

(** ** The module *)

Section Feature.

Variable E : Type.

(** What the interpreter does for an import of a module, and what a
    module's [extract] does on an input: both are the collaborators' own
    business and may raise.  An [extract] that returns answers a feature
    matrix, a numpy array. *)
Variable import_module : module_name → E → result unit * E.
Variable extract : module_name → pyval → E → result ndarray * E.

(** [from . import m]. *)
Definition import_ (m : module_name) : M E unit := external (import_module m).

(** [m.extract(tup)]. *)
Definition call_extract (m : module_name) (tup : pyval) : M E ndarray :=
  λ w, let '(r, x) := extract m tup (w_ext w) in
       (r, {| w_ext := x; w_stdout := w_stdout w;
              w_stderr := w_stderr w; w_calls := w_calls w ++ [(m, tup)] |}).

Definition warning_text : string :=
  "Warning: failed to import Bob, will use a slower version of MFCC instead.".

(** Lines 13 to 18: the module that the name [MFCC] ends up bound to. *)
Definition resolve_mfcc_extractor : M E module_name :=
  try_except_Exception
    (import_ mod_BOB ;; ret mod_BOB)
    (λ e,
       print_ Stderr [exn_text e] ;;
       print_ Stderr [warning_text] ;;
       import_ mod_MFCC ;;
       ret mod_MFCC).

(** The module's global names once it is initialised. *)
Record globals := { g_MFCC : module_name }.

(** Lines 12 to 20: everything the module runs when it is imported
    ([import sys] names a built-in module and always succeeds). *)
Definition module_init : M E globals :=
  let! m := resolve_mfcc_extractor in
  import_ mod_LPC ;;
  import_ mod_numpy ;;
  ret {| g_MFCC := m |}.

(** [get_extractor(extract_func, **kwargs)]: the closure [f]. *)
Definition get_extractor (extract_func : pyfunc E) (kwargs : gmap string pyval)
  : pyval → M E pyval :=
  λ tup,
    let! args := lift (py_unpack tup) in
    py_call extract_func args kwargs.

Definition diagnostic_text : string := "ERROR.. failed to extract mfcc feature:".

(** [mix_feature(tup)], with the global [MFCC] as resolved at import. *)
Definition mix_feature (g : globals) (tup : pyval) : M E ndarray :=
  let! mfcc := call_extract (g_MFCC g) tup in
  let! lpc := call_extract mod_LPC tup in
  let! n := lift (py_len (VArray mfcc)) in
  (if bool_decide (n = 0) then
     let! signal := lift (py_getitem tup 1) in
     let! len_signal := lift (py_len signal) in
     print_ Stderr [diagnostic_text; str_int len_signal]
   else ret tt) ;;
  lift (concatenate [mfcc; lpc] 1).

End Feature.

Arguments import_ {E}.
Arguments call_extract {E}.
Arguments resolve_mfcc_extractor {E}.
Arguments module_init {E}.
Arguments get_extractor {E}.
Arguments mix_feature {E}.

(** ** Vocabulary of the statements *)

(** The world once both extractors have answered, the second leaving the
    collaborators in state [x]. *)
Definition after_extraction {E} (g : globals) (tup : pyval) (x : E) (w : world E) : world E :=
  {| w_ext := x; w_stdout := w_stdout w; w_stderr := w_stderr w;
     w_calls := w_calls w ++ [(g_MFCC g, tup); (mod_LPC, tup)] |}.

(** The world after one more line on the error stream. *)
Definition log_stderr {E} (line : string) (w : world E) : world E :=
  {| w_ext := w_ext w; w_stdout := w_stdout w; w_stderr := w_stderr w ++ [line];
     w_calls := w_calls w |}.

(** [tup[1]] exists and [len] of it is [n]. *)
Definition sized_signal (tup : pyval) (n : nat) : Prop :=
  ∃ signal, py_getitem tup 1 = inr signal ∧ py_len signal = inr n.

(** The positional arguments [l] cannot be matched with the parameters of
    [fn]: there are more of them than parameters, or one of them lands on a
    parameter that a keyword of [kwargs] names as well, or they are too few
    to reach a parameter that has no default and that no keyword names. *)
Definition arity_mismatch {E} (fn : pyfunc E) (kwargs : gmap string pyval) (l : list pyval)
  : Prop :=
  length (fn_names fn) < length l
  ∨ (∃ p, p ∈ take (length l) (fn_names fn) ∧ is_Some (kwargs !! p))
  ∨ (∃ p, p ∈ drop (length l) (fn_params fn) ∧ kwargs !! p = None).

(** The outcome of [fn]'s body is a function of its arguments alone. *)
Definition deterministic {E} (fn : pyfunc E) : Prop :=
  ∀ vals x1 x2, (fn_body fn vals x1).1 = (fn_body fn vals x2).1.

(** A caller that applies [f] to each input in turn, whatever the earlier
    applications did, and keeps every outcome. *)
Fixpoint run_calls {E} (f : pyval → M E pyval) (ts : list pyval) (w : world E)
  : list (result pyval) * world E :=
  match ts with
  | [] => ([], w)
  | t :: ts' =>
      let '(r, w') := f t w in
      let '(rs, w'') := run_calls f ts' w' in
      (r :: rs, w'')
  end.

(** ** Sample inputs *)

Module Sample.

Definition mfcc_2x3 : ndarray :=
  {| shape := [2; 3]; data := [1.5; 2.5; 3.5; 4.5; 5.5; 6.5]%float |}.
Definition lpc_2x2 : ndarray :=
  {| shape := [2; 2]; data := [0.25; 0.5; 0.75; 1]%float |}.
Definition lpc_1x2 : ndarray := {| shape := [1; 2]; data := [0.25; 0.5]%float |}.
Definition mfcc_0x3 : ndarray := {| shape := [0; 3]; data := [] |}.
Definition lpc_0x2 : ndarray := {| shape := [0; 2]; data := [] |}.

(** Four samples at 16 kHz. *)
Definition signal_4 : ndarray := {| shape := [4]; data := [0; 0.125; -0.125; 0]%float |}.
(** A zero-dimensional array, as [np.array(0.5)] builds. *)
Definition scalar_array : ndarray := {| shape := []; data := [0.5]%float |}.

Definition tup_signal : pyval := VTuple [VInt 16000; VArray signal_4].
Definition tup_none : pyval := VTuple [VInt 16000; VNone].
Definition tup_scalar : pyval := VTuple [VInt 16000; VArray scalar_array].
Definition tup_number : pyval := VTuple [VInt 16000; VInt 0].
Definition tup_short : list pyval := [VInt 16000].

(** Collaborators without state of their own. *)
Definition w_init : world unit := World () [] [] [].

(** Extractors that answer [m] for either MFCC implementation and [l] for
    LPC, on every input. *)
Definition extract_const (m l : ndarray) (who : module_name) (tup : pyval) (x : unit)
  : result ndarray * unit :=
  match who with
  | mod_LPC => (Return l, x)
  | _ => (Return m, x)
  end.

(** The MFCC implementations reject the input; LPC would answer. *)
Definition extract_mfcc_fails (who : module_name) (tup : pyval) (x : unit)
  : result ndarray * unit :=
  match who with
  | mod_LPC => (Return lpc_2x2, x)
  | _ => (Raise (Exn ValueError "signal too short"), x)
  end.

Definition no_bob : exn := Exn ImportError "No module named bob".
Definition no_scipy : exn := Exn ImportError "No module named scipy".
Definition interrupted : exn := Exn KeyboardInterrupt "".

(** Bob is not installed; everything else imports. *)
Definition import_without_bob (m : module_name) (x : unit) : result unit * unit :=
  match m with
  | mod_BOB => (Raise no_bob, x)
  | _ => (Return (), x)
  end.

(** Bob is not installed and the fallback cannot be imported either. *)
Definition import_without_both (m : module_name) (x : unit) : result unit * unit :=
  match m with
  | mod_BOB => (Raise no_bob, x)
  | mod_MFCC => (Raise no_scipy, x)
  | _ => (Return (), x)
  end.

(** Bob gives up during its own initialisation with [sys.exit(1)]. *)
Definition bob_exits : exn := Exn SystemExit "1".
Definition import_bob_exits (m : module_name) (x : unit) : result unit * unit :=
  match m with
  | mod_BOB => (Raise bob_exits, x)
  | _ => (Return (), x)
  end.

(** The import of Bob is interrupted from the keyboard. *)
Definition import_interrupted (m : module_name) (x : unit) : result unit * unit :=
  match m with
  | mod_BOB => (Raise interrupted, x)
  | _ => (Return (), x)
  end.

(** [def extract_func(a, b, sr=8000)] with an arbitrary body. *)
Definition extract_func {E} (body : list pyval → E → result pyval * E) : pyfunc E :=
  {| fn_params := ["a"; "b"]; fn_options := [("sr", VInt 8000)]; fn_body := body |}.

(** A body that answers the number of values it was given. *)
Definition count_body (vals : list pyval) (x : unit) : result pyval * unit :=
  (Return (VInt (Z.of_nat (length vals))), x).

End Sample.

(** *** More sample inputs *)

Module SampleMore.

(** [mfcc_2x3] and [lpc_2x2] of [Sample], frame by frame. *)
Definition mixed_2x5 : ndarray :=
  {| shape := [2; 5];
     data := [1.5; 2.5; 3.5; 0.25; 0.5; 4.5; 5.5; 6.5; 0.75; 1]%float |}.

(** The world after one call of [mix_feature] on [Sample.tup_signal] with
    Bob bound, started in [Sample.w_init]. *)
Definition w_mixed : world unit :=
  World () [] [] [(mod_BOB, Sample.tup_signal); (mod_LPC, Sample.tup_signal)].


End SampleMore.

(** * Properties *)

(** ** numpy: joining two matrices along axis 1 *)

Section NumpyFacts.

Implicit Types (da db : list float) (a b : ndarray).

Lemma gather_pair_unfold F ka kb da db :
  gather (S F) [(ka, da); (kb, db)]
  = take ka da ++ take kb db ++ gather F [(ka, drop ka da); (kb, drop kb db)].
Proof. simpl. rewrite app_nil_r, <- app_assoc. reflexivity. Qed.

Lemma gather_pair_length F ka kb da db :
  length da = F * ka → length db = F * kb →
  length (gather F [(ka, da); (kb, db)]) = F * (ka + kb).
Proof.
  revert da db. induction F as [|F IH]; intros da db Ha Hb; [reflexivity|].
  rewrite gather_pair_unfold, !length_app, !length_take, IH.
  - lia.
  - rewrite length_drop. lia.
  - rewrite length_drop. lia.
Qed.

Lemma gather_pair_lookup_l F ka kb da db i j :
  length da = F * ka → length db = F * kb → i < F → j < ka →
  gather F [(ka, da); (kb, db)] !! (i * (ka + kb) + j) = da !! (i * ka + j).
Proof.
  revert da db i. induction F as [|F IH]; intros da db i Ha Hb Hi Hj; [lia|].
  rewrite gather_pair_unfold. destruct i as [|i].
  - simpl. rewrite lookup_app_l by (rewrite length_take; lia).
    apply lookup_take_lt. lia.
  - rewrite app_assoc, lookup_app_r by (rewrite length_app, !length_take; lia).
    rewrite length_app, !length_take.
    replace (S i * (ka + kb) + j - (ka `min` length da + kb `min` length db))
      with (i * (ka + kb) + j) by lia.
    rewrite IH by (rewrite ?length_drop; lia).
    rewrite lookup_drop. f_equal. lia.
Qed.

Lemma gather_pair_lookup_r F ka kb da db i j :
  length da = F * ka → length db = F * kb → i < F → j < kb →
  gather F [(ka, da); (kb, db)] !! (i * (ka + kb) + (ka + j)) = db !! (i * kb + j).
Proof.
  revert da db i. induction F as [|F IH]; intros da db i Ha Hb Hi Hj; [lia|].
  rewrite gather_pair_unfold. destruct i as [|i].
  - simpl. rewrite lookup_app_r by (rewrite length_take; lia).
    rewrite length_take. replace (ka + j - ka `min` length da) with j by lia.
    rewrite lookup_app_l by (rewrite length_take; lia).
    apply lookup_take_lt. lia.
  - rewrite app_assoc, lookup_app_r by (rewrite length_app, !length_take; lia).
    rewrite length_app, !length_take.
    replace (S i * (ka + kb) + (ka + j) - (ka `min` length da + kb `min` length db))
      with (i * (ka + kb) + (ka + j)) by lia.
    rewrite IH by (rewrite ?length_drop; lia).
    rewrite lookup_drop. f_equal. lia.
Qed.

(** Two matrices with the same number of rows, joined along axis 1. *)
Lemma concatenate_matrices a b F Ma Mb :
  shape a = [F; Ma] → shape b = [F; Mb] →
  concatenate [a; b] 1
  = inr {| shape := [F; Ma + Mb]; data := gather F [(Ma, data a); (Mb, data b)] |}.
Proof.
  intros Ha Hb. unfold concatenate. cbn [first_error fmap list_fmap].
  unfold check_against, ndim. rewrite Ha, Hb. simpl.
  rewrite !bool_decide_eq_true_2 by reflexivity.
  rewrite !Nat.mul_1_r, Nat.add_0_r. reflexivity.
Qed.

Lemma concatenate_row_mismatch a b F1 F2 Ma Mb :
  shape a = [F1; Ma] → shape b = [F2; Mb] → F1 ≠ F2 →
  concatenate [a; b] 1 = inl err_shape.
Proof.
  intros Ha Hb HF. unfold concatenate. cbn [first_error].
  unfold check_against, ndim. rewrite Ha, Hb. simpl.
  rewrite bool_decide_eq_false_2 by congruence. reflexivity.
Qed.

End NumpyFacts.

Section ItemFacts.

Lemma item2_concatenated_l a b F Ma Mb i j :
  shape a = [F; Ma] → wf_ndarray a → wf_ndarray b → shape b = [F; Mb] →
  i < F → j < Ma →
  item2 {| shape := [F; Ma + Mb]; data := gather F [(Ma, data a); (Mb, data b)] |} i j
  = item2 a i j.
Proof.
  unfold wf_ndarray, item2. intros Ha Wa Wb Hb Hi Hj. rewrite Ha in *. rewrite Hb in Wb.
  simpl in *. rewrite !bool_decide_eq_true_2 by lia.
  apply gather_pair_lookup_l; lia.
Qed.

Lemma item2_concatenated_r a b F Ma Mb i j :
  shape a = [F; Ma] → wf_ndarray a → wf_ndarray b → shape b = [F; Mb] →
  i < F → j < Mb →
  item2 {| shape := [F; Ma + Mb]; data := gather F [(Ma, data a); (Mb, data b)] |} i (Ma + j)
  = item2 b i j.
Proof.
  unfold wf_ndarray, item2. intros Ha Wa Wb Hb Hi Hj. rewrite Hb in *. rewrite Ha in Wa.
  simpl in *. rewrite !bool_decide_eq_true_2 by lia.
  apply gather_pair_lookup_r; lia.
Qed.

Lemma item2_is_Some a F Ma i j :
  shape a = [F; Ma] → wf_ndarray a → i < F → j < Ma → is_Some (item2 a i j).
Proof.
  unfold wf_ndarray, item2. intros Ha Wa Hi Hj. rewrite Ha in *. simpl in Wa.
  rewrite bool_decide_eq_true_2 by lia. apply lookup_lt_is_Some. nia.
Qed.

End ItemFacts.

(** ** One run of [mix_feature] *)

Section MixFacts.

Context {E : Type} (extract : module_name → pyval → E → result ndarray * E).

Lemma mix_feature_run g tup w a b x1 x2 :
  extract (g_MFCC g) tup (w_ext w) = (Return a, x1) →
  extract mod_LPC tup x1 = (Return b, x2) →
  mix_feature extract g tup w
  = (let! n := lift (py_len (VArray a)) in
     (if bool_decide (n = 0) then
        let! signal := lift (py_getitem tup 1) in
        let! len_signal := lift (py_len signal) in
        print_ Stderr [diagnostic_text; str_int len_signal]
      else ret tt) ;;
     lift (concatenate [a; b] 1)) (after_extraction g tup x2 w).
Proof.
  intros Hm Hl. unfold mix_feature, bind at 1, call_extract at 1. rewrite Hm.
  unfold bind at 1, call_extract at 1. cbn [w_ext]. rewrite Hl.
  unfold after_extraction. cbn [w_stdout w_stderr w_calls]. rewrite <- app_assoc. reflexivity.
Qed.

Lemma mix_feature_nonempty g tup w a b x1 x2 n sh :
  extract (g_MFCC g) tup (w_ext w) = (Return a, x1) →
  extract mod_LPC tup x1 = (Return b, x2) →
  shape a = S n :: sh →
  mix_feature extract g tup w = lift (concatenate [a; b] 1) (after_extraction g tup x2 w).
Proof.
  intros Hm Hl Ha. rewrite (mix_feature_run _ _ _ _ _ _ _ Hm Hl).
  unfold bind, lift, py_len. rewrite Ha. cbn -[concatenate].
  destruct (concatenate _ _); reflexivity.
Qed.

Lemma mix_feature_empty_sized g tup w a b x1 x2 sh k :
  extract (g_MFCC g) tup (w_ext w) = (Return a, x1) →
  extract mod_LPC tup x1 = (Return b, x2) →
  shape a = 0 :: sh → sized_signal tup k →
  mix_feature extract g tup w
  = lift (concatenate [a; b] 1)
      (log_stderr (print_line [diagnostic_text; str_int k]) (after_extraction g tup x2 w)).
Proof.
  intros Hm Hl Ha (signal & Hg & Hk). rewrite (mix_feature_run _ _ _ _ _ _ _ Hm Hl).
  unfold bind, lift, py_len at 1. rewrite Ha, Hg. cbn -[concatenate]. rewrite Hk.
  cbn -[concatenate]. destruct (concatenate _ _); reflexivity.
Qed.

Lemma mix_feature_empty_unsized g tup w a b x1 x2 sh e :
  extract (g_MFCC g) tup (w_ext w) = (Return a, x1) →
  extract mod_LPC tup x1 = (Return b, x2) →
  shape a = 0 :: sh →
  (py_getitem tup 1 = inl e ∨ ∃ signal, py_getitem tup 1 = inr signal ∧ py_len signal = inl e) →
  mix_feature extract g tup w = (Raise e, after_extraction g tup x2 w).
Proof.
  intros Hm Hl Ha Hbad. rewrite (mix_feature_run _ _ _ _ _ _ _ Hm Hl).
  unfold bind, lift, py_len at 1. rewrite Ha.
  destruct Hbad as [Hg | (signal & Hg & Hk)]; rewrite Hg; cbn; [reflexivity|].
  rewrite Hk. reflexivity.
Qed.

End MixFacts.

Section BuiltinFacts.

Lemma py_len_error_class v e : py_len v = inl e → exn_cls e = TypeError.
Proof.
  destruct v as [|z|x|s|l|l|a]; simpl; intros H;
    try destruct (shape a); inversion H; reflexivity.
Qed.

Lemma tuple_getitem_short l i : length l ≤ i → py_getitem (VTuple l) i = inl (err_index "tuple").
Proof. intros H. simpl. rewrite lookup_ge_None_2 by exact H. reflexivity. Qed.

Lemma tuple_getitem_some l i v : l !! i = Some v → py_getitem (VTuple l) i = inr v.
Proof. intros H. simpl. rewrite H. reflexivity. Qed.

End BuiltinFacts.

(** ** The mixer on extractor outputs *)

Section MixFeature.

Context {E : Type} (extract : module_name → pyval → E → result ndarray * E).

(** C1, amended.  When the resolved MFCC extractor answers a matrix of
    shape (F, M) and the LPC extractor one of shape (F, L) on the same
    tuple, and either F is not zero or the tuple's second element exists
    and has a length, [mix_feature] returns a matrix of shape (F, M + L)
    whose row [i] holds the M entries of the MFCC row [i] in columns
    0 .. M-1 and then the L entries of the LPC row [i] in columns
    M .. M+L-1; nothing is written to standard output. *)
Theorem mix_feature_shape_and_order g tup w a b x1 x2 F Mc Lc :
  extract (g_MFCC g) tup (w_ext w) = (Return a, x1) →
  extract mod_LPC tup x1 = (Return b, x2) →
  shape a = [F; Mc] → shape b = [F; Lc] →
  wf_ndarray a → wf_ndarray b →
  (F ≠ 0 ∨ ∃ n, sized_signal tup n) →
  ∃ c w',
    mix_feature extract g tup w = (Return c, w')
    ∧ shape c = [F; Mc + Lc] ∧ wf_ndarray c
    ∧ (∀ i j, i < F → j < Mc → item2 c i j = item2 a i j ∧ is_Some (item2 c i j))
    ∧ (∀ i j, i < F → j < Lc → item2 c i (Mc + j) = item2 b i j ∧ is_Some (item2 c i (Mc + j)))
    ∧ w_stdout w' = w_stdout w.
Proof.
  intros Hm Hl Ha Hb Wa Wb Hok.
  pose (c := {| shape := [F; Mc + Lc]; data := gather F [(Mc, data a); (Lc, data b)] |}).
  assert (Hrun : ∃ w', mix_feature extract g tup w = (Return c, w') ∧ w_stdout w' = w_stdout w).
  { destruct F as [|F].
    - destruct Hok as [Hok | [n Hn]]; [congruence|].
      rewrite (mix_feature_empty_sized extract _ _ _ _ _ _ _ _ _ Hm Hl Ha Hn).
      rewrite (concatenate_matrices _ _ _ _ _ Ha Hb). eauto.
    - rewrite (mix_feature_nonempty extract _ _ _ _ _ _ _ _ _ Hm Hl Ha).
      rewrite (concatenate_matrices _ _ _ _ _ Ha Hb). eauto. }
  destruct Hrun as (w' & Hrun & Hout). exists c, w'.
  split; [exact Hrun|]. split; [reflexivity|].
  assert (Wc : wf_ndarray c).
  { unfold wf_ndarray in *. rewrite Ha in Wa. rewrite Hb in Wb. simpl in *.
    rewrite gather_pair_length; lia. }
  split; [exact Wc|]. split; [|split; [|exact Hout]].
  - intros i j Hi Hj. split.
    + apply item2_concatenated_l; assumption.
    + apply (item2_is_Some c F (Mc + Lc)); [reflexivity|exact Wc|lia..].
  - intros i j Hi Hj. split.
    + apply item2_concatenated_r; assumption.
    + apply (item2_is_Some c F (Mc + Lc)); [reflexivity|exact Wc|lia..].
Qed.

(** C2, amended.  When the MFCC extractor answers F1 frames and the LPC
    extractor F2 frames with F1 different from F2, [mix_feature] raises
    and returns no matrix at all.  The exception is the shape mismatch of
    the concatenation whenever F1 is not zero or the tuple's second element
    exists and has a length (in the second case the diagnostic line has
    been written first).  Otherwise, that is with F1 zero and [tup[1]] or
    [len(tup[1])] raising, the exception is the one of that diagnostic
    step, raised before the concatenation, and nothing has been logged. *)
Theorem mix_feature_frame_mismatch g tup w a b x1 x2 F1 F2 Mc Lc :
  extract (g_MFCC g) tup (w_ext w) = (Return a, x1) →
  extract mod_LPC tup x1 = (Return b, x2) →
  shape a = [F1; Mc] → shape b = [F2; Lc] →
  F1 ≠ F2 →
  ∃ e w',
    mix_feature extract g tup w = (Raise e, w')
    ∧ ((F1 ≠ 0 ∨ ∃ n, sized_signal tup n) → e = err_shape)
    ∧ (F1 ≠ 0 → w' = after_extraction g tup x2 w)
    ∧ (F1 = 0 → ∀ n, sized_signal tup n →
       w' = log_stderr (diagnostic_text +:+ " " +:+ str_int n) (after_extraction g tup x2 w))
    ∧ (F1 = 0 → ∀ e',
       (py_getitem tup 1 = inl e'
        ∨ ∃ signal, py_getitem tup 1 = inr signal ∧ py_len signal = inl e') →
       e = e' ∧ w' = after_extraction g tup x2 w).
Proof.
  intros Hm Hl Ha Hb HF.
  pose proof (concatenate_row_mismatch _ _ _ _ _ _ Ha Hb HF) as Hcat.
  destruct F1 as [|F1].
  - destruct (py_getitem tup 1) as [e|signal] eqn:Hg.
    + exists e, (after_extraction g tup x2 w). split; [|split; [|split; [|split]]].
      * apply (mix_feature_empty_unsized extract _ _ _ _ _ _ _ _ _ Hm Hl Ha). left. exact Hg.
      * intros [Hne | (n & s & Hs & _)]; congruence.
      * congruence.
      * intros _ n (s & Hs & _). congruence.
      * intros _ e' [He' | (s & Hs & _)]; [|congruence].
        split; [congruence|reflexivity].
    + destruct (py_len signal) as [e|n] eqn:Hk.
      * exists e, (after_extraction g tup x2 w). split; [|split; [|split; [|split]]].
        -- apply (mix_feature_empty_unsized extract _ _ _ _ _ _ _ _ _ Hm Hl Ha). right. eauto.
        -- intros [Hne | (n & s & Hs & Hn)]; congruence.
        -- congruence.
        -- intros _ n (s & Hs & Hn). congruence.
        -- intros _ e' [He' | (s & Hs & Hn)]; [congruence|].
           split; [congruence|reflexivity].
      * assert (Hn : sized_signal tup n) by (exists signal; auto).
        rewrite (mix_feature_empty_sized extract _ _ _ _ _ _ _ _ _ Hm Hl Ha Hn), Hcat.
        eexists _, _. split; [reflexivity|]. split; [reflexivity|].
        split; [congruence|]. split.
        -- intros _ n' (s & Hs & Hn'). assert (n' = n) as -> by congruence. reflexivity.
        -- intros _ e' [He' | (s & Hs & Hn')]; congruence.
  - rewrite (mix_feature_nonempty extract _ _ _ _ _ _ _ _ _ Hm Hl Ha), Hcat.
    eexists _, _. split; [reflexivity|]. split; [reflexivity|].
    split; [reflexivity|]. split; intros; discriminate.
Qed.

(** C3, amended.  When the MFCC extractor answers shape (0, M), the LPC
    extractor shape (0, L), and the tuple's second element exists and has
    length [n], [mix_feature] does not raise: it appends to the error
    stream the one line made of the diagnostic text and [n], writes nothing
    to standard output, and returns the empty matrix of shape (0, M + L). *)
Theorem mix_feature_empty_mfcc g tup w a b x1 x2 Mc Lc n :
  extract (g_MFCC g) tup (w_ext w) = (Return a, x1) →
  extract mod_LPC tup x1 = (Return b, x2) →
  shape a = [0; Mc] → shape b = [0; Lc] →
  sized_signal tup n →
  ∃ w',
    mix_feature extract g tup w = (Return {| shape := [0; Mc + Lc]; data := [] |}, w')
    ∧ w_stderr w' = w_stderr w ++ [diagnostic_text +:+ " " +:+ str_int n]
    ∧ w_stdout w' = w_stdout w.
Proof.
  intros Hm Hl Ha Hb Hn.
  rewrite (mix_feature_empty_sized extract _ _ _ _ _ _ _ _ _ Hm Hl Ha Hn).
  rewrite (concatenate_matrices _ _ _ _ _ Ha Hb).
  eexists. split; [reflexivity|]. split; reflexivity.
Qed.

(** C10.  When the MFCC extractor answers an array with zero frames and
    the input tuple has fewer than two elements, or its second element has
    no length, [mix_feature] raises and logs nothing.  Whenever the LPC
    extraction has returned, so that the diagnostic step is reached, the
    exception is the one of that step, the [IndexError] of [tup[1]] or the
    [TypeError] of [len(tup[1])], raised before any concatenation and
    whatever the LPC extractor answered; otherwise it is the exception of
    the LPC extraction. *)
Theorem mix_feature_diagnostic_needs_sized_signal g l w a x1 :
  extract (g_MFCC g) (VTuple l) (w_ext w) = (Return a, x1) →
  py_len (VArray a) = inr 0 →
  (length l < 2 ∨ ∃ v e, l !! 1 = Some v ∧ py_len v = inl e) →
  ∃ e w',
    mix_feature extract g (VTuple l) w = (Raise e, w')
    ∧ w_stderr w' = w_stderr w
    ∧ match extract mod_LPC (VTuple l) x1 with
      | (Raise e', _) => e = e'
      | (Return _, x2) =>
          w' = after_extraction g (VTuple l) x2 w
          ∧ ((length l < 2 ∧ e = err_index "tuple" ∧ exn_cls e = IndexError)
             ∨ (∃ v, l !! 1 = Some v ∧ py_len v = inl e ∧ exn_cls e = TypeError))
      end.
Proof.
  intros Hm Hlen Hbad.
  destruct (extract mod_LPC (VTuple l) x1) as [[b|e'] x2] eqn:Hl.
  - assert (Ha : ∃ sh, shape a = 0 :: sh).
    { simpl in Hlen. destruct (shape a) as [|n sh]; [discriminate|].
      exists sh. congruence. }
    destruct Ha as [sh Ha].
    destruct Hbad as [Hshort | (v & e & Hv & He)].
    + exists (err_index "tuple"), (after_extraction g (VTuple l) x2 w).
      split; [|split; [reflexivity|split; [reflexivity|left; auto]]].
      apply (mix_feature_empty_unsized extract _ _ _ _ _ _ _ _ _ Hm Hl Ha).
      left. apply tuple_getitem_short. lia.
    + exists e, (after_extraction g (VTuple l) x2 w).
      split; [|split; [reflexivity|split; [reflexivity|right]]].
      * apply (mix_feature_empty_unsized extract _ _ _ _ _ _ _ _ _ Hm Hl Ha).
        right. exists v. split; [apply tuple_getitem_some; exact Hv|exact He].
      * exists v. eauto using py_len_error_class.
  - unfold mix_feature, bind, call_extract. rewrite Hm. cbn [w_ext]. rewrite Hl.
    eexists _, _. split; [reflexivity|]. split; reflexivity.
Qed.

End MixFeature.

(** ** Which extractors a call of [mix_feature] invokes *)

Section ExtractorCalls.

Context {E : Type} (extract : module_name → pyval → E → result ndarray * E).

(** What follows the two extractions touches the error stream at most. *)
Lemma mix_feature_tail_frame (a b : ndarray) (tup : pyval) (w : world E) :
  let tail : M E ndarray :=
    (let! n := lift (py_len (VArray a)) in
     (if bool_decide (n = 0) then
        let! signal := lift (py_getitem tup 1) in
        let! len_signal := lift (py_len signal) in
        print_ Stderr [diagnostic_text; str_int len_signal]
      else ret tt) ;;
     lift (concatenate [a; b] 1)) in
  w_calls (tail w).2 = w_calls w ∧ w_ext (tail w).2 = w_ext w
  ∧ w_stdout (tail w).2 = w_stdout w.
Proof.
  cbv zeta. unfold bind, lift, ret, raise, print_.
  destruct (py_len (VArray a)) as [e|n]; [auto|].
  destruct (bool_decide (n = 0)).
  - destruct (py_getitem tup 1) as [e|signal]; [auto|].
    destruct (py_len signal) as [e|k]; [auto|].
    destruct (concatenate [a; b] 1); auto.
  - destruct (concatenate [a; b] 1); auto.
Qed.

Lemma mix_feature_calls g tup w :
  ∃ r w', mix_feature extract g tup w = (r, w') ∧
    match extract (g_MFCC g) tup (w_ext w) with
    | (Raise e, x1) =>
        r = Raise e ∧ w_ext w' = x1
        ∧ w_calls w' = w_calls w ++ [(g_MFCC g, tup)]
    | (Return _, x1) =>
        w_ext w' = (extract mod_LPC tup x1).2
        ∧ w_calls w' = w_calls w ++ [(g_MFCC g, tup); (mod_LPC, tup)]
    end.
Proof.
  destruct (extract (g_MFCC g) tup (w_ext w)) as [[a|e] x1] eqn:Hm.
  - destruct (extract mod_LPC tup x1) as [[b|e] x2] eqn:Hl.
    + rewrite (mix_feature_run extract _ _ _ _ _ _ _ Hm Hl).
      pose proof (mix_feature_tail_frame a b tup (after_extraction g tup x2 w)) as Hframe.
      cbv zeta in Hframe. destruct Hframe as (Hc & Hx & _).
      match goal with |- ∃ r w', ?run = _ ∧ _ => destruct run as [r w'] end.
      exists r, w'. split; [reflexivity|]. simpl in *. auto.
    + unfold mix_feature, bind, call_extract. rewrite Hm. cbn [w_ext]. rewrite Hl.
      eexists _, _. split; [reflexivity|]. cbn. rewrite <- app_assoc. auto.
  - unfold mix_feature, bind, call_extract. rewrite Hm.
    eexists _, _. split; [reflexivity|]. auto.
Qed.

(** C7, amended.  Every call of [mix_feature] first invokes the resolved
    MFCC extractor's [extract] on the input tuple, once.  When that
    invocation returns, the call next invokes the LPC extractor's [extract]
    on the same tuple, once, and invokes no extractor after it; when it
    raises, the exception ends the call and the LPC extractor is not
    invoked.  Nothing is remembered between calls: a second call on the
    same tuple starts with a new invocation of the MFCC extractor. *)
Theorem mix_feature_extractor_calls g tup w :
  (∃ r w', mix_feature extract g tup w = (r, w') ∧
     match extract (g_MFCC g) tup (w_ext w) with
     | (Raise e, x1) =>
         r = Raise e ∧ w_ext w' = x1
         ∧ w_calls w' = w_calls w ++ [(g_MFCC g, tup)]
     | (Return _, x1) =>
         w_ext w' = (extract mod_LPC tup x1).2
         ∧ w_calls w' = w_calls w ++ [(g_MFCC g, tup); (mod_LPC, tup)]
     end)
  ∧ (∃ c1 c2,
       w_calls (mix_feature extract g tup (mix_feature extract g tup w).2).2
       = w_calls w ++ ((g_MFCC g, tup) :: c1) ++ ((g_MFCC g, tup) :: c2)).
Proof.
  split; [apply mix_feature_calls|].
  assert (Hone : ∀ w0, ∃ c, w_calls (mix_feature extract g tup w0).2
                            = w_calls w0 ++ (g_MFCC g, tup) :: c).
  { intros w0. destruct (mix_feature_calls g tup w0) as (r & w' & Hrun & Hcase).
    rewrite Hrun. cbn [snd].
    destruct (extract (g_MFCC g) tup (w_ext w0)) as [[a|e] x1].
    - destruct Hcase as (_ & ->). eauto.
    - destruct Hcase as (_ & _ & ->). eauto. }
  destruct (Hone w) as [c1 H1].
  destruct (Hone (mix_feature extract g tup w).2) as [c2 H2].
  exists c1, c2. rewrite H2, H1, <- app_assoc. reflexivity.
Qed.

End ExtractorCalls.

(** ** Import-time choice of the MFCC implementation *)

Section Resolution.

Context {E : Type} (import_module : module_name → E → result unit * E).

(** The resolution step, case by case on what the two imports do. *)
Lemma resolve_cases (w : world E) :
  resolve_mfcc_extractor import_module w
  = match import_module mod_BOB (w_ext w) with
    | (Return _, x1) =>
        (Return mod_BOB,
         {| w_ext := x1; w_stdout := w_stdout w; w_stderr := w_stderr w;
            w_calls := w_calls w |})
    | (Raise e, x1) =>
        if is_Exception e then
          let '(r, x2) := import_module mod_MFCC x1 in
          (match r with Return _ => Return mod_MFCC | Raise e' => Raise e' end,
           {| w_ext := x2; w_stdout := w_stdout w;
              w_stderr := w_stderr w ++ [exn_text e; warning_text];
              w_calls := w_calls w |})
        else
          (Raise e,
           {| w_ext := x1; w_stdout := w_stdout w; w_stderr := w_stderr w;
              w_calls := w_calls w |})
    end.
Proof.
  unfold resolve_mfcc_extractor, try_except_Exception, bind, import_, external, ret.
  destruct (import_module mod_BOB (w_ext w)) as [[u|e] x1]; [reflexivity|].
  destruct (is_Exception e); [|reflexivity].
  unfold print_. cbn. destruct (import_module mod_MFCC x1) as [[u|e'] x2];
    rewrite <- app_assoc; reflexivity.
Qed.

(** C5, amended.  If the import of the fast implementation raises an error
    that is an instance of [Exception], and the import of the fallback
    implementation then succeeds, the resolution step does not raise: it
    writes to the error stream the text of the error and then the warning,
    writes nothing to standard output, and binds the fallback
    implementation, so that the rest of the initialisation and every later
    use run with [MFCC] bound to it. *)
Theorem resolve_falls_back (w : world E) (e : exn) (x1 x2 : E) :
  import_module mod_BOB (w_ext w) = (Raise e, x1) →
  is_Exception e = true →
  import_module mod_MFCC x1 = (Return (), x2) →
  let w' := {| w_ext := x2; w_stdout := w_stdout w;
               w_stderr := w_stderr w ++ [exn_text e; warning_text];
               w_calls := w_calls w |} in
  resolve_mfcc_extractor import_module w = (Return mod_MFCC, w')
  ∧ module_init import_module w
    = (import_ import_module mod_LPC ;;
       import_ import_module mod_numpy ;;
       ret {| g_MFCC := mod_MFCC |}) w'
  ∧ (∀ g w'', module_init import_module w = (Return g, w'') → g_MFCC g = mod_MFCC).
Proof.
  intros Hbob Hexn Hfallback w'.
  assert (Hres : resolve_mfcc_extractor import_module w = (Return mod_MFCC, w')).
  { rewrite resolve_cases, Hbob, Hexn, Hfallback. reflexivity. }
  assert (Hinit : module_init import_module w
                  = (import_ import_module mod_LPC ;;
                     import_ import_module mod_numpy ;;
                     ret {| g_MFCC := mod_MFCC |}) w').
  { unfold module_init, bind at 1. rewrite Hres. reflexivity. }
  split; [exact Hres|]. split; [exact Hinit|].
  intros g w''. rewrite Hinit. unfold bind, import_, external, ret.
  destruct (import_module mod_LPC (w_ext w')) as [[u|e1] y1]; [|discriminate].
  cbn. destruct (import_module mod_numpy y1) as [[u'|e2] y2]; [|discriminate].
  intros [= <- _]. reflexivity.
Qed.

(** C6, amended.  In every execution the resolution step writes zero or
    more diagnostic lines to the error stream only and nothing to standard
    output: what it prints is either nothing, or the text of the error (as
    many lines as that text has) and then the warning.  It returns when the
    import of the fast implementation succeeds, or fails with an instance
    of [Exception] while the import of the fallback succeeds.  It raises in
    the two remaining cases: an exception of the fast import that is not an
    instance of [Exception] propagates, and so does any exception raised by
    the import of the fallback.  The whole initialisation writes nothing to
    standard output either. *)
Theorem resolution_effects (w : world E) :
  ∃ r w',
    resolve_mfcc_extractor import_module w = (r, w')
    ∧ w_stdout w' = w_stdout w
    ∧ (w_stderr w' = w_stderr w
       ∨ ∃ e, w_stderr w' = w_stderr w ++ [exn_text e; warning_text])
    ∧ match import_module mod_BOB (w_ext w) with
      | (Return _, _) => r = Return mod_BOB ∧ w_stderr w' = w_stderr w
      | (Raise e, x1) =>
          if is_Exception e then
            w_stderr w' = w_stderr w ++ [exn_text e; warning_text]
            ∧ match import_module mod_MFCC x1 with
              | (Return _, _) => r = Return mod_MFCC
              | (Raise e', _) => r = Raise e'
              end
          else r = Raise e ∧ w_stderr w' = w_stderr w
      end
    ∧ w_stdout (module_init import_module w).2 = w_stdout w.
Proof.
  assert (Hinit : ∀ r w', resolve_mfcc_extractor import_module w = (r, w') →
                          w_stdout w' = w_stdout w →
                          w_stdout (module_init import_module w).2 = w_stdout w).
  { intros r w' Hres Hout. unfold module_init, bind at 1. rewrite Hres.
    destruct r as [m|e]; [|exact Hout].
    unfold bind, import_, external, ret.
    destruct (import_module mod_LPC (w_ext w')) as [[u|e1] y1]; [|exact Hout].
    cbn. destruct (import_module mod_numpy y1) as [[u'|e2] y2]; exact Hout. }
  pose proof (resolve_cases w) as Hres.
  destruct (import_module mod_BOB (w_ext w)) as [[u|e] x1].
  - eexists _, _. split; [exact Hres|]. repeat split; eauto.
  - destruct (is_Exception e).
    + destruct (import_module mod_MFCC x1) as [[u|e'] x2];
        (eexists _, _; split; [exact Hres|]; repeat split; eauto).
    + eexists _, _. split; [exact Hres|]. repeat split; eauto.
Qed.

End Resolution.

(** ** The closure built by [get_extractor] *)

Section Factory.

Context {E : Type}.

Implicit Types (fn : pyfunc E) (kwargs : gmap string pyval) (w : world E).

Lemma get_extractor_tuple fn kwargs (t : list pyval) w :
  get_extractor fn kwargs (VTuple t) w = py_call fn t kwargs w.
Proof. reflexivity. Qed.

Lemma py_call_bound fn kwargs (args vals : list pyval) w :
  bind_args fn args kwargs = inr vals →
  py_call fn args kwargs w = external (fn_body fn vals) w.
Proof. intros H. unfold py_call, bind, lift. rewrite H. reflexivity. Qed.

Lemma py_call_unbound fn kwargs (args : list pyval) e w :
  bind_args fn args kwargs = inl e →
  py_call fn args kwargs w = (Raise e, w).
Proof. intros H. unfold py_call, bind, lift. rewrite H. reflexivity. Qed.

Lemma bind_args_mismatch fn kwargs (l : list pyval) :
  arity_mismatch fn kwargs l →
  ∃ e, bind_args fn l kwargs = inl e ∧ exn_cls e = TypeError.
Proof.
  intros Hbad. unfold bind_args.
  case_bool_decide as Hmany; [eauto|].
  case_bool_decide as Hkeys; cbn [negb]; [|eauto].
  case_bool_decide as Hdup; cbn [negb]; [|eauto].
  case_bool_decide as Hfew; cbn [negb]; [|eauto].
  exfalso. destruct Hbad as [Hlen | [(p & Hp & [v Hv]) | (p & Hp & Hnone)]]; [lia| |].
  - rewrite Forall_forall in Hdup. specialize (Hdup p Hp). congruence.
  - rewrite Forall_forall in Hfew. destruct (Hfew p Hp) as [v Hv]. congruence.
Qed.

(** For a function without defaults and keywords that name none of its
    parameters, any tuple of another length than the parameter list is a
    mismatch. *)
Lemma arity_mismatch_plain fn kwargs (l : list pyval) :
  fn_options fn = [] →
  (∀ p, p ∈ fn_params fn → kwargs !! p = None) →
  length l ≠ length (fn_params fn) →
  arity_mismatch fn kwargs l.
Proof.
  intros Hopt Hkw Hlen. unfold arity_mismatch, fn_names. rewrite Hopt. cbn.
  rewrite app_nil_r.
  destruct (decide (length (fn_params fn) < length l)) as [Hlt|Hge]; [left; exact Hlt|].
  right. right.
  destruct (drop (length l) (fn_params fn)) as [|p rest] eqn:Hdrop.
  - apply (f_equal length) in Hdrop. rewrite length_drop in Hdrop. simpl in Hdrop. lia.
  - exists p. split; [left|]. apply Hkw.
    apply (subseteq_drop (length l)). rewrite Hdrop. left.
Qed.

(** C4.  The callable built by [get_extractor(extract_func, **config)],
    applied to a tuple [t], is the call of [extract_func] with the elements
    of [t] as positional arguments and [config] as keyword arguments: same
    outcome, same effects, nothing added.  When the arguments bind, its
    value is the value of the body of [extract_func].  In particular for
    [def extract_func(a, b, sr=...)] and [config = {sr: 16000}], applying
    it to [(a_val, b_val)] runs the body on [a_val], [b_val] and 16000. *)
Theorem get_extractor_passes_through fn kwargs (t : list pyval) w :
  get_extractor fn kwargs (VTuple t) w = py_call fn t kwargs w
  ∧ (∀ vals, bind_args fn t kwargs = inr vals →
       get_extractor fn kwargs (VTuple t) w = external (fn_body fn vals) w
       ∧ (get_extractor fn kwargs (VTuple t) w).1 = (fn_body fn vals (w_ext w)).1)
  ∧ (∀ body a_val b_val,
       py_call (Sample.extract_func body) [a_val; b_val] {[ "sr" := VInt 16000 ]} w
       = external (body [a_val; b_val; VInt 16000]) w
       ∧ get_extractor (Sample.extract_func body) {[ "sr" := VInt 16000 ]}
           (VTuple [a_val; b_val]) w
         = external (body [a_val; b_val; VInt 16000]) w).
Proof.
  split; [apply get_extractor_tuple|]. split.
  - intros vals Hvals. rewrite get_extractor_tuple, (py_call_bound _ _ _ _ _ Hvals).
    split; [reflexivity|]. unfold external.
    destruct (fn_body fn vals (w_ext w)); reflexivity.
  - intros body a_val b_val. rewrite get_extractor_tuple.
    assert (Hb : bind_args (Sample.extract_func body) [a_val; b_val] {[ "sr" := VInt 16000 ]}
                 = inr [a_val; b_val; VInt 16000]) by (vm_compute; reflexivity).
    rewrite (py_call_bound _ _ _ _ _ Hb). split; reflexivity.
Qed.

(** C8.  Whatever exception the call of the extraction function raises,
    the callable built by [get_extractor] raises that very exception and
    leaves the world as the call left it.  In particular, when the tuple
    does not fit the parameters of the extraction function, the call raises
    a [TypeError] at argument binding, before the body runs, and the
    callable raises that same [TypeError] with the world untouched: no
    diagnostic, no substitute value, no other exception in its place. *)
Theorem get_extractor_arity_error fn kwargs (t : list pyval) w :
  (∀ e w', py_call fn t kwargs w = (Raise e, w') →
           get_extractor fn kwargs (VTuple t) w = (Raise e, w'))
  ∧ (arity_mismatch fn kwargs t →
     ∃ e,
       exn_cls e = TypeError
       ∧ py_call fn t kwargs w = (Raise e, w)
       ∧ get_extractor fn kwargs (VTuple t) w = (Raise e, w)).
Proof.
  split.
  - intros e w' Hcall. rewrite get_extractor_tuple. exact Hcall.
  - intros Hbad. destruct (bind_args_mismatch _ _ _ Hbad) as (e & He & Hcls).
    exists e. split; [exact Hcls|].
    rewrite get_extractor_tuple, (py_call_unbound _ _ _ _ _ He). split; reflexivity.
Qed.

Lemma get_extractor_outcome fn kwargs (t : pyval) w1 w2 :
  deterministic fn →
  (get_extractor fn kwargs t w1).1 = (get_extractor fn kwargs t w2).1.
Proof.
  intros Hdet. unfold get_extractor, py_call, bind, lift, raise, ret.
  destruct (py_unpack t) as [e|args]; [reflexivity|].
  destruct (bind_args fn args kwargs) as [e|vals]; [reflexivity|].
  unfold external. specialize (Hdet vals (w_ext w1) (w_ext w2)).
  destruct (fn_body fn vals (w_ext w1)), (fn_body fn vals (w_ext w2)). exact Hdet.
Qed.

Lemma run_calls_lookup (f : pyval → M E pyval) (ts : list pyval) w w0 i t :
  (∀ t' w1 w2, (f t' w1).1 = (f t' w2).1) →
  ts !! i = Some t →
  (run_calls f ts w).1 !! i = Some (f t w0).1.
Proof.
  intros Hf. revert w i. induction ts as [|t0 ts IH]; intros w i Hi; [discriminate|].
  cbn [run_calls]. destruct (f t0 w) as [r w'] eqn:Hr.
  specialize (IH w'). destruct (run_calls f ts w') as [rs w''].
  destruct i as [|i]; cbn in *.
  - injection Hi as ->. f_equal. rewrite <- (Hf t w w0), Hr. reflexivity.
  - apply IH. exact Hi.
Qed.

(** C9.  The callable built by [get_extractor] keeps nothing from one
    invocation to the next: for a deterministic extraction function its
    outcome on a tuple is the same in every world, so in any sequence of
    invocations, however long and in whatever order, two invocations on the
    same tuple have the same outcome. *)
Theorem get_extractor_stateless fn kwargs :
  deterministic fn →
  (∀ t w1 w2,
     (get_extractor fn kwargs t w1).1 = (get_extractor fn kwargs t w2).1)
  ∧ (∀ ts w i j t,
       ts !! i = Some t → ts !! j = Some t →
       ∃ r, (run_calls (get_extractor fn kwargs) ts w).1 !! i = Some r
            ∧ (run_calls (get_extractor fn kwargs) ts w).1 !! j = Some r).
Proof.
  intros Hdet. split.
  - intros t w1 w2. apply get_extractor_outcome. exact Hdet.
  - intros ts w i j t Hi Hj. exists (get_extractor fn kwargs t w).1.
    split; apply run_calls_lookup; try assumption;
      intros t' w1 w2; apply get_extractor_outcome; exact Hdet.
Qed.

End Factory.

(** ** The statements at sample inputs *)

Import Sample.

(** Two frames, three MFCC and two LPC coefficients each. *)
Lemma mix_feature_shape_and_order_witness :
  ∃ c w',
    mix_feature (extract_const mfcc_2x3 lpc_2x2) {| g_MFCC := mod_BOB |} tup_signal w_init
    = (Return c, w')
    ∧ shape c = [2; 3 + 2] ∧ wf_ndarray c
    ∧ (∀ i j, i < 2 → j < 3 → item2 c i j = item2 mfcc_2x3 i j ∧ is_Some (item2 c i j))
    ∧ (∀ i j, i < 2 → j < 2 →
         item2 c i (3 + j) = item2 lpc_2x2 i j ∧ is_Some (item2 c i (3 + j)))
    ∧ w_stdout w' = w_stdout w_init.
Proof.
  apply (mix_feature_shape_and_order (extract_const mfcc_2x3 lpc_2x2)
           {| g_MFCC := mod_BOB |} tup_signal w_init mfcc_2x3 lpc_2x2 () () 2 3 2);
    [reflexivity | reflexivity | reflexivity | reflexivity | reflexivity | reflexivity |].
  left. lia.
Defined.

(** The same extraction seen entry by entry. *)
Example mix_feature_sample_rows :
  (mix_feature (extract_const mfcc_2x3 lpc_2x2) {| g_MFCC := mod_MFCC |} tup_signal w_init).1
  = Return {| shape := [2; 5];
              data := [1.5; 2.5; 3.5; 0.25; 0.5; 4.5; 5.5; 6.5; 0.75; 1]%float |}.
Proof. reflexivity. Qed.

(** C1 as stated fails: the extractors answer shapes (0, 3) and (0, 2) on
    the pair (16000, None), and [mix_feature] raises the [TypeError] of
    [len(None)] instead of returning a matrix of shape (0, 5). *)
Lemma mix_feature_shape_counterexample :
  extract_const mfcc_0x3 lpc_0x2 mod_BOB tup_none () = (Return mfcc_0x3, ())
  ∧ extract_const mfcc_0x3 lpc_0x2 mod_LPC tup_none () = (Return lpc_0x2, ())
  ∧ shape mfcc_0x3 = [0; 3] ∧ shape lpc_0x2 = [0; 2]
  ∧ wf_ndarray mfcc_0x3 ∧ wf_ndarray lpc_0x2
  ∧ mix_feature (extract_const mfcc_0x3 lpc_0x2) {| g_MFCC := mod_BOB |} tup_none w_init
    = (Raise (err_no_len "NoneType"),
       after_extraction {| g_MFCC := mod_BOB |} tup_none () w_init).
Proof. repeat split. Qed.

(** No MFCC frame against one LPC frame, on a pair whose second element
    is a zero-dimensional array: the run is the one that ends at the
    diagnostic step. *)
Lemma mix_feature_frame_mismatch_witness :
  ∃ e w',
    mix_feature (extract_const mfcc_0x3 lpc_1x2) {| g_MFCC := mod_BOB |} tup_scalar w_init
    = (Raise e, w')
    ∧ ((0 ≠ 0 ∨ ∃ n, sized_signal tup_scalar n) → e = err_shape)
    ∧ (0 ≠ 0 → w' = after_extraction {| g_MFCC := mod_BOB |} tup_scalar () w_init)
    ∧ (0 = 0 → ∀ n, sized_signal tup_scalar n →
       w' = log_stderr (diagnostic_text +:+ " " +:+ str_int n)
              (after_extraction {| g_MFCC := mod_BOB |} tup_scalar () w_init))
    ∧ (0 = 0 → ∀ e',
       (py_getitem tup_scalar 1 = inl e'
        ∨ ∃ signal, py_getitem tup_scalar 1 = inr signal ∧ py_len signal = inl e') →
       e = e' ∧ w' = after_extraction {| g_MFCC := mod_BOB |} tup_scalar () w_init).
Proof.
  apply (mix_feature_frame_mismatch (extract_const mfcc_0x3 lpc_1x2)
           {| g_MFCC := mod_BOB |} tup_scalar w_init mfcc_0x3 lpc_1x2 () () 0 1 3 2);
    [reflexivity | reflexivity | reflexivity | reflexivity |].
  lia.
Defined.

(** Two MFCC frames against one LPC frame: the concatenation refuses. *)
Example mix_feature_sample_mismatch :
  mix_feature (extract_const mfcc_2x3 lpc_1x2) {| g_MFCC := mod_BOB |} tup_signal w_init
  = (Raise err_shape, after_extraction {| g_MFCC := mod_BOB |} tup_signal () w_init).
Proof. reflexivity. Qed.

(** C2 as stated fails: with zero MFCC frames, one LPC frame and a
    zero-dimensional array as second element of the tuple, the exception is
    the [TypeError] of [len], raised before the concatenation, and not the
    shape mismatch. *)
Lemma mix_feature_frame_mismatch_counterexample :
  extract_const mfcc_0x3 lpc_1x2 mod_BOB tup_scalar () = (Return mfcc_0x3, ())
  ∧ extract_const mfcc_0x3 lpc_1x2 mod_LPC tup_scalar () = (Return lpc_1x2, ())
  ∧ shape mfcc_0x3 = [0; 3] ∧ shape lpc_1x2 = [1; 2] ∧ 0 ≠ 1
  ∧ mix_feature (extract_const mfcc_0x3 lpc_1x2) {| g_MFCC := mod_BOB |} tup_scalar w_init
    = (Raise err_unsized, after_extraction {| g_MFCC := mod_BOB |} tup_scalar () w_init)
  ∧ exn_cls err_unsized = TypeError
  ∧ concatenate [mfcc_0x3; lpc_1x2] 1 = inl err_shape
  ∧ err_unsized ≠ err_shape.
Proof. repeat split; discriminate. Qed.

(** No MFCC frame for a signal of four samples. *)
Lemma mix_feature_empty_mfcc_witness :
  ∃ w',
    mix_feature (extract_const mfcc_0x3 lpc_0x2) {| g_MFCC := mod_MFCC |} tup_signal w_init
    = (Return {| shape := [0; 3 + 2]; data := [] |}, w')
    ∧ w_stderr w' = w_stderr w_init ++ [diagnostic_text +:+ " " +:+ str_int 4]
    ∧ w_stdout w' = w_stdout w_init.
Proof.
  apply (mix_feature_empty_mfcc (extract_const mfcc_0x3 lpc_0x2)
           {| g_MFCC := mod_MFCC |} tup_signal w_init mfcc_0x3 lpc_0x2 () () 3 2 4);
    [reflexivity | reflexivity | reflexivity | reflexivity |].
  exists (VArray signal_4). split; reflexivity.
Defined.

(** The line that run leaves on the error stream. *)
Example mix_feature_sample_diagnostic :
  w_stderr
    (mix_feature (extract_const mfcc_0x3 lpc_0x2) {| g_MFCC := mod_MFCC |} tup_signal w_init).2
  = ["ERROR.. failed to extract mfcc feature: 4"].
Proof. reflexivity. Qed.

(** C3 as stated fails: the extractors answer shapes (0, 3) and (0, 2) on
    the pair (16000, 0), and [mix_feature] raises the [TypeError] of
    [len(0)]; it returns nothing and the error stream stays empty. *)
Lemma mix_feature_empty_mfcc_counterexample :
  extract_const mfcc_0x3 lpc_0x2 mod_MFCC tup_number () = (Return mfcc_0x3, ())
  ∧ extract_const mfcc_0x3 lpc_0x2 mod_LPC tup_number () = (Return lpc_0x2, ())
  ∧ shape mfcc_0x3 = [0; 3] ∧ shape lpc_0x2 = [0; 2]
  ∧ mix_feature (extract_const mfcc_0x3 lpc_0x2) {| g_MFCC := mod_MFCC |} tup_number w_init
    = (Raise (err_no_len "int"),
       World () [] [] [(mod_MFCC, tup_number); (mod_LPC, tup_number)]).
Proof. repeat split. Qed.

(** A tuple of one element. *)
Lemma mix_feature_diagnostic_needs_sized_signal_witness :
  ∃ e w',
    mix_feature (extract_const mfcc_0x3 lpc_0x2) {| g_MFCC := mod_BOB |} (VTuple tup_short) w_init
    = (Raise e, w')
    ∧ w_stderr w' = w_stderr w_init
    ∧ (w' = after_extraction {| g_MFCC := mod_BOB |} (VTuple tup_short) () w_init
       ∧ ((length tup_short < 2 ∧ e = err_index "tuple" ∧ exn_cls e = IndexError)
          ∨ (∃ v, tup_short !! 1 = Some v ∧ py_len v = inl e ∧ exn_cls e = TypeError))).
Proof.
  apply (mix_feature_diagnostic_needs_sized_signal (extract_const mfcc_0x3 lpc_0x2)
           {| g_MFCC := mod_BOB |} tup_short w_init mfcc_0x3 ());
    [reflexivity | reflexivity |].
  left. simpl. lia.
Defined.

(** The same tuple seen by the interpreter. *)
Example mix_feature_sample_short_tuple :
  mix_feature (extract_const mfcc_0x3 lpc_0x2) {| g_MFCC := mod_BOB |} (VTuple tup_short) w_init
  = (Raise (Exn IndexError "tuple index out of range"),
     World () [] [] [(mod_BOB, VTuple tup_short); (mod_LPC, VTuple tup_short)]).
Proof. reflexivity. Qed.

(** C7 as stated fails: when the MFCC extractor raises, the call ends with
    that exception and the only invocation logged is the MFCC one; the LPC
    extractor is not invoked. *)
Lemma mix_feature_extractor_calls_counterexample :
  mix_feature extract_mfcc_fails {| g_MFCC := mod_BOB |} tup_signal w_init
  = (Raise (Exn ValueError "signal too short"),
     World () [] [] [(mod_BOB, tup_signal)]).
Proof. reflexivity. Qed.

(** Bob is missing and the fallback imports. *)
Lemma resolve_falls_back_witness :
  let w' := {| w_ext := (); w_stdout := w_stdout w_init;
               w_stderr := w_stderr w_init ++ [exn_text no_bob; warning_text];
               w_calls := w_calls w_init |} in
  resolve_mfcc_extractor import_without_bob w_init = (Return mod_MFCC, w')
  ∧ module_init import_without_bob w_init
    = (import_ import_without_bob mod_LPC ;;
       import_ import_without_bob mod_numpy ;;
       ret {| g_MFCC := mod_MFCC |}) w'
  ∧ (∀ g w'', module_init import_without_bob w_init = (Return g, w'') → g_MFCC g = mod_MFCC).
Proof.
  apply (resolve_falls_back import_without_bob w_init no_bob () ());
    [reflexivity | reflexivity | reflexivity].
Defined.

(** C5 as stated fails: the import of Bob raises an [ImportError], the
    import of the fallback raises one too, and the initialisation ends
    with the second error: the importer gets an exception and no
    implementation is bound.  And when Bob's initialisation ends in
    [SystemExit], which is no instance of [Exception], that exception
    itself reaches the importer and nothing is written. *)
Lemma resolve_falls_back_counterexample :
  (import_without_both mod_BOB (w_ext w_init) = (Raise no_bob, ())
   ∧ is_Exception no_bob = true
   ∧ resolve_mfcc_extractor import_without_both w_init
     = (Raise no_scipy, World () [] ["No module named bob"; warning_text] [])
   ∧ module_init import_without_both w_init
     = (Raise no_scipy, World () [] ["No module named bob"; warning_text] []))
  ∧ (import_bob_exits mod_BOB (w_ext w_init) = (Raise bob_exits, ())
     ∧ module_init import_bob_exits w_init = (Raise bob_exits, w_init)).
Proof. repeat split. Qed.

(** C6 as stated fails: the resolution step raises to the importer when
    both imports fail, and when the import of Bob raises an exception that
    is not an instance of [Exception]. *)
Lemma resolution_effects_counterexample :
  (resolve_mfcc_extractor import_without_both w_init).1 = Raise no_scipy
  ∧ resolve_mfcc_extractor import_interrupted w_init = (Raise interrupted, w_init)
  ∧ (module_init import_interrupted w_init).1 = Raise interrupted.
Proof. repeat split. Qed.

(** Four values for a function of three parameters. *)
Lemma get_extractor_arity_error_witness :
  ∃ e,
    exn_cls e = TypeError
    ∧ py_call (extract_func count_body) [VInt 1; VInt 2; VInt 3; VInt 4]
        {[ "sr" := VInt 16000 ]} w_init
      = (Raise e, w_init)
    ∧ get_extractor (extract_func count_body) {[ "sr" := VInt 16000 ]}
        (VTuple [VInt 1; VInt 2; VInt 3; VInt 4]) w_init
      = (Raise e, w_init).
Proof.
  apply (get_extractor_arity_error (extract_func count_body) {[ "sr" := VInt 16000 ]}
           [VInt 1; VInt 2; VInt 3; VInt 4] w_init).
  left. simpl. lia.
Defined.

(** Three values while [sr] is also given by keyword. *)
Example get_extractor_keyword_collision :
  get_extractor (extract_func count_body) {[ "sr" := VInt 16000 ]}
    (VTuple [VInt 1; VInt 2; VInt 3]) w_init
  = (Raise err_multiple_values, w_init).
Proof. reflexivity. Qed.

(** One value where two are required and no keyword supplies the other. *)
Example get_extractor_too_few :
  get_extractor (extract_func count_body) {[ "sr" := VInt 16000 ]} (VTuple [VInt 1]) w_init
  = (Raise err_too_few, w_init).
Proof. reflexivity. Qed.

(** A body that ignores the collaborators' state. *)
Lemma get_extractor_stateless_witness :
  (∀ t w1 w2,
     (get_extractor (extract_func count_body) {[ "sr" := VInt 16000 ]} t w1).1
     = (get_extractor (extract_func count_body) {[ "sr" := VInt 16000 ]} t w2).1)
  ∧ (∀ ts w i j t,
       ts !! i = Some t → ts !! j = Some t →
       ∃ r, (run_calls (get_extractor (extract_func count_body) {[ "sr" := VInt 16000 ]})
               ts w).1 !! i = Some r
            ∧ (run_calls (get_extractor (extract_func count_body) {[ "sr" := VInt 16000 ]})
                 ts w).1 !! j = Some r).
Proof.
  apply (get_extractor_stateless (extract_func count_body) {[ "sr" := VInt 16000 ]}).
  intros vals x1 x2. reflexivity.
Defined.

(** * Further properties *)

(** ** numpy: what a successful join of two arrays along axis 1 tells *)

Section JoinFacts.

Implicit Types (da db : list float) (a b c : ndarray).

Lemma concatenate_pair_inv a b c :
  concatenate [a; b] 1 = inr c →
  ∃ r ca cb rest,
    shape a = r :: ca :: rest ∧ shape b = r :: cb :: rest
    ∧ shape c = r :: (ca + cb) :: rest
    ∧ data c = gather r [(ca * size_of rest, data a); (cb * size_of rest, data b)].
Proof.
  unfold concatenate. cbn [first_error fmap list_fmap]. unfold check_against, ndim.
  destruct (shape a) as [|r [|ca rest]] eqn:Ha; cbn; try discriminate.
  destruct (shape b) as [|rb [|cb restb]] eqn:Hb; cbn;
    repeat case_bool_decide; try discriminate; try lia.
  match goal with H : _ :: 0 :: _ = _ :: 0 :: _ |- _ => injection H as -> -> end.
  intros [= <-]. exists r, ca, cb, rest. cbn.
  rewrite Nat.mul_1_r, Nat.add_0_r. auto.
Qed.

Lemma gather_pair_chunk F ka kb da db i :
  length da = F * ka → length db = F * kb → i < F →
  take (ka + kb) (drop (i * (ka + kb)) (gather F [(ka, da); (kb, db)]))
  = take ka (drop (i * ka) da) ++ take kb (drop (i * kb) db).
Proof.
  revert da db i. induction F as [|F IH]; intros da db i Ha Hb Hi; [lia|].
  rewrite gather_pair_unfold. destruct i as [|i].
  - rewrite !Nat.mul_0_l, !drop_0, app_assoc.
    apply take_app_length'. rewrite length_app, !length_take. lia.
  - rewrite app_assoc.
    rewrite drop_app_ge by (rewrite length_app, !length_take; lia).
    rewrite length_app, !length_take.
    replace (S i * (ka + kb) - (ka `min` length da + kb `min` length db))
      with (i * (ka + kb)) by lia.
    rewrite IH by (rewrite ?length_drop; lia).
    rewrite !drop_drop. do 2 f_equal; f_equal; lia.
Qed.

End JoinFacts.

(** ** More on [mix_feature] *)

Section MixFeatureMore.

Context {E : Type} (extract : module_name → pyval → E → result ndarray * E).

(** A returned value is the join of the two extractor outputs. *)
Lemma mix_feature_return_inv g tup w a b x1 x2 c w' :
  extract (g_MFCC g) tup (w_ext w) = (Return a, x1) →
  extract mod_LPC tup x1 = (Return b, x2) →
  mix_feature extract g tup w = (Return c, w') →
  concatenate [a; b] 1 = inr c.
Proof.
  intros Hm Hl. rewrite (mix_feature_run extract _ _ _ _ _ _ _ Hm Hl).
  unfold bind, lift, ret, raise, print_.
  destruct (py_len (VArray a)) as [e|n]; [discriminate|].
  destruct (bool_decide (n = 0)).
  - destruct (py_getitem tup 1) as [e|signal]; [discriminate|].
    destruct (py_len signal) as [e|k]; [discriminate|].
    destruct (concatenate [a; b] 1); [discriminate|]. congruence.
  - destruct (concatenate [a; b] 1); [discriminate|]. congruence.
Qed.

(** X1.  Whatever the input and whatever the extractors do, [mix_feature]
    writes nothing to standard output, and to the error stream either
    nothing or exactly one line, the diagnostic text followed by
    [len(tup[1])]; it writes that line only when both extractions have
    returned and the MFCC result has zero frames. *)
Theorem mix_feature_streams g tup w :
  let w' := (mix_feature extract g tup w).2 in
  w_stdout w' = w_stdout w
  ∧ (w_stderr w' = w_stderr w
     ∨ ∃ n a b x1 x2,
         w_stderr w' = w_stderr w ++ [diagnostic_text +:+ " " +:+ str_int n]
         ∧ extract (g_MFCC g) tup (w_ext w) = (Return a, x1)
         ∧ extract mod_LPC tup x1 = (Return b, x2)
         ∧ py_len (VArray a) = inr 0
         ∧ sized_signal tup n).
Proof.
  cbv zeta.
  destruct (extract (g_MFCC g) tup (w_ext w)) as [[a|e] x1] eqn:Hm.
  - destruct (extract mod_LPC tup x1) as [[b|e] x2] eqn:Hl.
    + rewrite (mix_feature_run extract _ _ _ _ _ _ _ Hm Hl).
      unfold bind, lift, ret, raise, print_.
      destruct (py_len (VArray a)) as [e|n] eqn:Hn; [auto|].
      case_bool_decide as Hz.
      * subst n. destruct (py_getitem tup 1) as [e|signal] eqn:Hg; [auto|].
        destruct (py_len signal) as [e|k] eqn:Hk; [auto|].
        assert (Hs : sized_signal tup k) by (exists signal; auto).
        destruct (concatenate [a; b] 1); (split; [reflexivity|]);
          right; exists k, a, b, x1, x2; auto.
      * destruct (concatenate [a; b] 1); auto.
    + unfold mix_feature, bind, call_extract. rewrite Hm. cbn [w_ext]. rewrite Hl. auto.
  - unfold mix_feature, bind, call_extract. rewrite Hm. auto.
Qed.

(** X2.  When the two extractors answer matrices of shapes (F1, M) and
    (F2, L), [mix_feature] returns a value exactly when F1 = F2 and either
    F1 is not zero or [tup[1]] exists and has a length; in every other case
    it raises. *)
Theorem mix_feature_returns_iff g tup w a b x1 x2 F1 F2 Mc Lc :
  extract (g_MFCC g) tup (w_ext w) = (Return a, x1) →
  extract mod_LPC tup x1 = (Return b, x2) →
  shape a = [F1; Mc] → shape b = [F2; Lc] →
  (∃ c w', mix_feature extract g tup w = (Return c, w'))
  ↔ (F1 = F2 ∧ (F1 ≠ 0 ∨ ∃ n, sized_signal tup n)).
Proof.
  intros Hm Hl Ha Hb. split.
  - intros (c & w' & Hrun).
    pose proof (mix_feature_return_inv _ _ _ _ _ _ _ _ _ Hm Hl Hrun) as Hcat.
    destruct (decide (F1 = F2)) as [->|Hne].
    + split; [reflexivity|]. destruct F2 as [|F]; [right|left; lia].
      destruct (py_getitem tup 1) as [e|signal] eqn:Hg.
      * rewrite (mix_feature_empty_unsized extract _ _ _ _ _ _ _ _ e Hm Hl Ha) in Hrun
          by (left; exact Hg). discriminate.
      * destruct (py_len signal) as [e|k] eqn:Hk.
        -- rewrite (mix_feature_empty_unsized extract _ _ _ _ _ _ _ _ e Hm Hl Ha) in Hrun
             by (right; eauto). discriminate.
        -- exists k, signal. auto.
    + rewrite (concatenate_row_mismatch _ _ _ _ _ _ Ha Hb Hne) in Hcat. discriminate.
  - intros [<- Hok]. destruct F1 as [|F].
    + destruct Hok as [Hok|[n Hn]]; [congruence|].
      rewrite (mix_feature_empty_sized extract _ _ _ _ _ _ _ _ _ Hm Hl Ha Hn).
      rewrite (concatenate_matrices _ _ _ _ _ Ha Hb). eauto.
    + rewrite (mix_feature_nonempty extract _ _ _ _ _ _ _ _ _ Hm Hl Ha).
      rewrite (concatenate_matrices _ _ _ _ _ Ha Hb). eauto.
Qed.

(** X3.  When the MFCC extractor answers zero frames, the LPC extractor at
    least one, and [tup[1]] has length [n], [mix_feature] first writes the
    diagnostic line and then raises the shape mismatch of the
    concatenation: the line reaches the error stream although the call
    fails. *)
Theorem mix_feature_logs_then_fails g tup w a b x1 x2 F2 Mc Lc n :
  extract (g_MFCC g) tup (w_ext w) = (Return a, x1) →
  extract mod_LPC tup x1 = (Return b, x2) →
  shape a = [0; Mc] → shape b = [S F2; Lc] →
  sized_signal tup n →
  ∃ w',
    mix_feature extract g tup w = (Raise err_shape, w')
    ∧ w_stderr w' = w_stderr w ++ [diagnostic_text +:+ " " +:+ str_int n].
Proof.
  intros Hm Hl Ha Hb Hn.
  rewrite (mix_feature_empty_sized extract _ _ _ _ _ _ _ _ _ Hm Hl Ha Hn).
  rewrite (concatenate_row_mismatch _ _ 0 (S F2) _ _ Ha Hb) by lia.
  eexists. split; reflexivity.
Qed.

(** X4.  Whenever [mix_feature] returns, both extractor outputs have at
    least two dimensions and the same shape apart from axis 1, and the
    returned array has that shape with the two extents of axis 1 added up:
    as many frames as the MFCC output, and a buffer of the announced size
    when the inputs have one. *)
Theorem mix_feature_return_shape g tup w a b x1 x2 c w' :
  extract (g_MFCC g) tup (w_ext w) = (Return a, x1) →
  extract mod_LPC tup x1 = (Return b, x2) →
  mix_feature extract g tup w = (Return c, w') →
  ∃ r ca cb rest,
    shape a = r :: ca :: rest ∧ shape b = r :: cb :: rest
    ∧ shape c = r :: (ca + cb) :: rest
    ∧ py_len (VArray c) = inr r ∧ py_len (VArray a) = inr r
    ∧ (wf_ndarray a → wf_ndarray b → wf_ndarray c).
Proof.
  intros Hm Hl Hrun.
  pose proof (mix_feature_return_inv _ _ _ _ _ _ _ _ _ Hm Hl Hrun) as Hcat.
  destruct (concatenate_pair_inv _ _ _ Hcat) as (r & ca & cb & rest & Ha & Hb & Hc & Hd).
  exists r, ca, cb, rest. repeat split; try assumption.
  - simpl. rewrite Hc. reflexivity.
  - simpl. rewrite Ha. reflexivity.
  - unfold wf_ndarray. rewrite Ha, Hb, Hc, Hd. cbn. intros Wa Wb.
    rewrite gather_pair_length by assumption.
    rewrite Nat.mul_add_distr_r. reflexivity.
Qed.

(** X5.  Whenever [mix_feature] returns, each frame of the returned array
    is the matching frame of the MFCC output followed by the matching frame
    of the LPC output: indexing the result at [i] gives the entries of
    [mfcc[i]] and then those of [lpc[i]]. *)
Theorem mix_feature_frames g tup w a b x1 x2 c w' n i :
  extract (g_MFCC g) tup (w_ext w) = (Return a, x1) →
  extract mod_LPC tup x1 = (Return b, x2) →
  wf_ndarray a → wf_ndarray b →
  mix_feature extract g tup w = (Return c, w') →
  py_len (VArray a) = inr n → i < n →
  ∃ fa fb fc,
    py_getitem (VArray a) i = inr (VArray fa)
    ∧ py_getitem (VArray b) i = inr (VArray fb)
    ∧ py_getitem (VArray c) i = inr (VArray fc)
    ∧ data fc = data fa ++ data fb.
Proof.
  intros Hm Hl Wa Wb Hrun Hn Hi.
  pose proof (mix_feature_return_inv _ _ _ _ _ _ _ _ _ Hm Hl Hrun) as Hcat.
  destruct (concatenate_pair_inv _ _ _ Hcat) as (r & ca & cb & rest & Ha & Hb & Hc & Hd).
  simpl in Hn. rewrite Ha in Hn. injection Hn as <-.
  exists (slice0 a i), (slice0 b i), (slice0 c i).
  cbn [py_getitem]. rewrite Ha, Hb, Hc, !bool_decide_eq_true_2 by exact Hi.
  repeat split. unfold slice0. rewrite Ha, Hb, Hc, Hd. cbn.
  unfold wf_ndarray in Wa, Wb. rewrite Ha in Wa. rewrite Hb in Wb. cbn in Wa, Wb.
  rewrite Nat.mul_add_distr_r. apply gather_pair_chunk; assumption.
Qed.

End MixFeatureMore.

(** ** More on the closure built by [get_extractor] *)

Section FactoryMore.

Context {E : Type}.

Implicit Types (fn : pyfunc E) (kwargs : gmap string pyval) (w : world E).


(** X7.  For an extraction function that declares all its parameters by
    name, with no catch-all for further keywords (the functions [pyfunc]
    describes), [get_extractor] does not look at the configuration when the
    callable is built: if the configuration names something that is no
    parameter of the function, every application of the callable to a
    tuple raises a [TypeError] at argument binding and leaves the world
    untouched. *)
Theorem get_extractor_unknown_option fn kwargs (k : string) (t : list pyval) w :
  is_Some (kwargs !! k) → k ∉ fn_names fn →
  ∃ e,
    exn_cls e = TypeError
    ∧ get_extractor fn kwargs (VTuple t) w = (Raise e, w).
Proof.
  intros Hk Hnot.
  assert (Hbind : ∃ e, bind_args fn t kwargs = inl e ∧ exn_cls e = TypeError).
  { unfold bind_args. case_bool_decide as Hmany; [eauto|].
    rewrite bool_decide_eq_false_2; cbn [negb]; [eauto|].
    rewrite Forall_forall. intros Hall. apply Hnot, Hall.
    apply elem_of_elements, elem_of_dom. exact Hk. }
  destruct Hbind as (e & He & Hcls). exists e. split; [exact Hcls|].
  rewrite get_extractor_tuple, (py_call_unbound _ _ _ _ _ He). reflexivity.
Qed.

End FactoryMore.

(** ** More on the initialisation *)

Section InitMore.

Context {E : Type} (import_module : module_name → E → result unit * E)
        (extract : module_name → pyval → E → result ndarray * E).





End InitMore.

(** ** The further properties at sample inputs *)

Import SampleMore.

(** Two frames from each extractor. *)
Lemma mix_feature_returns_iff_witness :
  (∃ c w',
     mix_feature (extract_const mfcc_2x3 lpc_2x2) {| g_MFCC := mod_BOB |} tup_signal w_init
     = (Return c, w'))
  ↔ (2 = 2 ∧ (2 ≠ 0 ∨ ∃ n, sized_signal tup_signal n)).
Proof.
  apply (mix_feature_returns_iff (extract_const mfcc_2x3 lpc_2x2)
           {| g_MFCC := mod_BOB |} tup_signal w_init mfcc_2x3 lpc_2x2 () () 2 2 3 2);
    reflexivity.
Defined.

(** No MFCC frame against one LPC frame, for a signal of four samples. *)
Lemma mix_feature_logs_then_fails_witness :
  ∃ w',
    mix_feature (extract_const mfcc_0x3 lpc_1x2) {| g_MFCC := mod_BOB |} tup_signal w_init
    = (Raise err_shape, w')
    ∧ w_stderr w' = w_stderr w_init ++ [diagnostic_text +:+ " " +:+ str_int 4].
Proof.
  apply (mix_feature_logs_then_fails (extract_const mfcc_0x3 lpc_1x2)
           {| g_MFCC := mod_BOB |} tup_signal w_init mfcc_0x3 lpc_1x2 () () 0 3 2 4);
    [reflexivity | reflexivity | reflexivity | reflexivity |].
  exists (VArray signal_4). split; reflexivity.
Defined.

Lemma mix_feature_return_shape_witness :
  ∃ r ca cb rest,
    shape mfcc_2x3 = r :: ca :: rest ∧ shape lpc_2x2 = r :: cb :: rest
    ∧ shape mixed_2x5 = r :: (ca + cb) :: rest
    ∧ py_len (VArray mixed_2x5) = inr r ∧ py_len (VArray mfcc_2x3) = inr r
    ∧ (wf_ndarray mfcc_2x3 → wf_ndarray lpc_2x2 → wf_ndarray mixed_2x5).
Proof.
  apply (mix_feature_return_shape (extract_const mfcc_2x3 lpc_2x2)
           {| g_MFCC := mod_BOB |} tup_signal w_init mfcc_2x3 lpc_2x2 () () mixed_2x5 w_mixed);
    reflexivity.
Defined.

(** The second frame. *)
Lemma mix_feature_frames_witness :
  ∃ fa fb fc,
    py_getitem (VArray mfcc_2x3) 1 = inr (VArray fa)
    ∧ py_getitem (VArray lpc_2x2) 1 = inr (VArray fb)
    ∧ py_getitem (VArray mixed_2x5) 1 = inr (VArray fc)
    ∧ data fc = data fa ++ data fb.
Proof.
  apply (mix_feature_frames (extract_const mfcc_2x3 lpc_2x2)
           {| g_MFCC := mod_BOB |} tup_signal w_init mfcc_2x3 lpc_2x2 () () mixed_2x5 w_mixed 2 1);
    [reflexivity | reflexivity | reflexivity | reflexivity | reflexivity | reflexivity |].
  lia.
Defined.

(** That frame, entry by entry. *)
Example mix_feature_sample_frame :
  py_getitem (VArray mixed_2x5) 1
  = inr (VArray {| shape := [5]; data := [4.5; 5.5; 6.5; 0.75; 1]%float |}).
Proof. reflexivity. Qed.


(** A configuration that names [rate], which is no parameter. *)
Lemma get_extractor_unknown_option_witness :
  ∃ e,
    exn_cls e = TypeError
    ∧ get_extractor (extract_func count_body) {[ "rate" := VInt 16000 ]}
        (VTuple [VInt 1; VInt 2]) w_init
      = (Raise e, w_init).
Proof.
  apply (get_extractor_unknown_option (extract_func count_body)
           {[ "rate" := VInt 16000 ]} "rate" [VInt 1; VInt 2] w_init).
  - exists (VInt 16000). reflexivity.
  - apply (bool_decide_unpack _). vm_compute. exact I.
Defined.



